(** * Advent of Code 2022, days 1 and 4: a shallow embedding and its properties

    The development follows the two scripts [day01.py] and [day04.py].

    - Python integers are unbounded: they are [Z]. The interpreter's cap
      on the digits of a conversion between [int] and [str] (4300 by
      default) is modelled where a script writes an integer, in [print]:
      there it ends a run on an input that was parsed. On input the cap
      only bounds the length of a literal that is read, and it is left
      out, as is the memory a large [range] takes.
    - A Python [str] is a [string]; a character is a code point below 256
      (Latin-1), which covers every character the two input formats use.
      In that range the whitespace characters of [str.strip], those of
      [int] (fewer) and the decimal digits of [int] are exactly the ones
      listed below.
    - A raised exception is [None]: every failure of the two scripts is a
      [ValueError] ([int] on a malformed literal, a tuple unpacking of the
      wrong length, [max] of an empty sequence), and nothing catches it.
    - A [Set[int]] is a [gset Z].
    - A text file is the string of its decoded content, line ends already
      translated to line feeds. *)

From Stdlib Require Import ZArith String Ascii DecimalString DecimalZ DecimalPos.
From stdpp Require Import base option list sorting gmap strings.

Local Open Scope string_scope.
Local Open Scope Z_scope.

(** ** The Python built-ins the scripts call *)

(** The line feed, Python's ["\n"]. *)
Definition NL : ascii := "010"%char.

(** The separators of day 1: ["\n"] between lines, ["\n\n"] between groups. *)
Definition line_sep : string := String NL EmptyString.
Definition group_sep : string := String NL (String NL EmptyString).

(** [c.isspace()] for a code point below 256: TAB, LF, VT, FF, CR, the
    separators FS, GS, RS, US, the space, NEL and the no-break space. *)
Definition isspace (c : ascii) : bool :=
  let n := nat_of_ascii c in
  ((9 <=? n) && (n <=? 13) || (28 <=? n) && (n <=? 32) || (n =? 133) || (n =? 160))%nat.

(** A decimal digit, and its value. *)
Definition isdigit (c : ascii) : bool :=
  let n := nat_of_ascii c in ((48 <=? n) && (n <=? 57))%nat.

Definition digit_value (c : ascii) : Z := Z.of_nat (nat_of_ascii c) - 48.

(** [s.lstrip()], [s.rstrip()] and [s.strip()]. *)
Fixpoint str_lstrip (s : string) : string :=
  match s with
  | EmptyString => EmptyString
  | String c r => if isspace c then str_lstrip r else s
  end.

Fixpoint str_rstrip (s : string) : string :=
  match s with
  | EmptyString => EmptyString
  | String c r =>
      match str_rstrip r with
      | EmptyString => if isspace c then EmptyString else String c EmptyString
      | r' => String c r'
      end
  end.

Definition str_strip (s : string) : string := str_rstrip (str_lstrip s).

(** [s.split(sep)] for a non-empty [sep] (every call of the scripts passes a
    literal one): the text is scanned from the left, and each occurrence of
    [sep] found closes the current piece and is skipped whole.
    [split_from sep skip s] is the piece being read and the pieces after it,
    [skip] being the number of characters of a found separator still to
    pass over. *)
Fixpoint split_from (sep : string) (skip : nat) (s : string) : string * list string :=
  match s with
  | EmptyString => (EmptyString, [])
  | String c r =>
      match skip with
      | S k => split_from sep k r
      | O =>
          if String.prefix sep s
          then (EmptyString,
                let '(p, ps) := split_from sep (String.length sep - 1) r in p :: ps)
          else let '(p, ps) := split_from sep 0 r in (String c p, ps)
      end
  end.

Definition str_split (sep s : string) : list string :=
  let '(p, ps) := split_from sep 0 s in p :: ps.

(** Iterating over a text file: its lines, each with its line feed, the last
    one as it stands. *)
Fixpoint readlines (s : string) : list string :=
  match s with
  | EmptyString => []
  | String c r =>
      if Ascii.eqb c NL then String c EmptyString :: readlines r
      else match readlines r with
           | [] => [String c EmptyString]
           | l :: ls => String c l :: ls
           end
  end.

(** The whitespace [int] allows around a literal: TAB, LF, VT, FF, CR and
    the space, and beyond ASCII NEL and the no-break space. The separators
    FS, GS, RS and US, which [str.strip] removes, are refused by [int]. *)
Definition int_isspace (c : ascii) : bool :=
  let n := nat_of_ascii c in
  ((9 <=? n) && (n <=? 13) || (n =? 32) || (n =? 133) || (n =? 160))%nat.

Fixpoint int_lstrip (s : string) : string :=
  match s with
  | EmptyString => EmptyString
  | String c r => if int_isspace c then int_lstrip r else s
  end.

Fixpoint int_rstrip (s : string) : string :=
  match s with
  | EmptyString => EmptyString
  | String c r =>
      match int_rstrip r with
      | EmptyString => if int_isspace c then EmptyString else String c EmptyString
      | r' => String c r'
      end
  end.

Definition int_strip (s : string) : string := int_rstrip (int_lstrip s).

(** The digits of an integer literal: decimal digits, with single
    underscores allowed between two digits. [prev_us] says the previous
    character was an underscore. *)
Fixpoint digits_from (prev_us : bool) (acc : Z) (s : string) : option Z :=
  match s with
  | EmptyString => if prev_us then None else Some acc
  | String c r =>
      if isdigit c then digits_from false (10 * acc + digit_value c) r
      else if Ascii.eqb c "_" then
             if prev_us then None else digits_from true acc r
      else None
  end.

Definition digits (s : string) : option Z :=
  match s with
  | EmptyString => None
  | String c _ => if isdigit c then digits_from false 0 s else None
  end.

(** [int(s)] in base ten: surrounding whitespace, an optional sign, digits. *)
Definition py_int (s : string) : option Z :=
  match int_strip s with
  | EmptyString => None
  | String c r =>
      if Ascii.eqb c "-" then Z.opp <$> digits r
      else if Ascii.eqb c "+" then digits r
      else digits (String c r)
  end.

(** [str(n)], the decimal rendering of an integer. *)
Definition py_str (n : Z) : string := NilZero.string_of_int (Z.to_int n).

(** [sum(xs)]: the additions start from 0 and go left to right. *)
Definition py_sum (xs : list Z) : Z := fold_left Z.add xs 0.

(** [max(xs)]: the first element, replaced by each later one that is
    greater; an empty sequence raises. *)
Definition keep_greater (m y : Z) : Z := if bool_decide (m < y) then y else m.

Definition py_max (xs : list Z) : option Z :=
  match xs with
  | [] => None
  | x :: r => Some (fold_left keep_greater r x)
  end.

(** [min(xs)], alike. *)
Definition keep_smaller (m y : Z) : Z := if bool_decide (y < m) then y else m.

Definition py_min (xs : list Z) : option Z :=
  match xs with
  | [] => None
  | x :: r => Some (fold_left keep_smaller r x)
  end.

(** [sorted(xs, reverse=True)]: a stable merge sort into descending order. *)
Definition py_sorted_reverse (xs : list Z) : list Z := merge_sort (flip Z.le) xs.

(** [range(start, stop)]. *)
Definition py_range (start stop : Z) : list Z := seqZ start (stop - start).

(** [set(xs)]. *)
Definition py_set (xs : list Z) : gset Z := list_to_set xs.

(** Every character of [s] satisfies [P]. *)
Fixpoint all_chars (P : ascii → bool) (s : string) : bool :=
  match s with
  | EmptyString => true
  | String c r => P c && all_chars P r
  end.

(** A text from its lines, each closed by a line feed. *)
Definition unlines (ls : list string) : string :=
  foldr (λ l acc, l +:+ String NL acc) EmptyString ls.

(** [sep.join(parts)]. *)
Fixpoint str_join (sep : string) (parts : list string) : string :=
  match parts with
  | [] => EmptyString
  | [x] => x
  | x :: r => x +:+ sep +:+ str_join sep r
  end.

(** A run of a script: the text it wrote to the standard output, and
    whether it ended by an uncaught exception. *)
Record run : Type := Run { stdout : string; raised : bool }.

(** [print(n)] after [out] has been written: the rendering and a line feed. *)
Definition py_print (n : Z) (out : string) : string := out +:+ py_str n +:+ line_sep.

(** The interpreter's default cap on a conversion: an integer of more than
    4300 decimal digits, one whose absolute value reaches [10 ^ 4300], has
    no rendering, and [str] raises. *)
Definition str_digits_bound : Z := 10 ^ 4300.

Definition py_str_checked (n : Z) : option string :=
  if bool_decide (Z.abs n < str_digits_bound) then Some (py_str n) else None.





(** ** Day 1 *)

Module Day01.

Abbreviation ElfInventory := (list Z) (only parsing).

Definition most_calories (inventories : list ElfInventory) : option Z :=
  py_max (py_sum <$> inventories).

Definition sum_of_top_three_calories (inventories : list ElfInventory) : Z :=
  let sums := py_sum <$> inventories in
  py_sum (take 3 (py_sorted_reverse sums)).

(** [file_in] is the text [file_in.read()] returns. *)
Definition parse_inventories (file_in : string) : option (list ElfInventory) :=
  mapM (λ inventory, mapM py_int (str_split line_sep (str_strip inventory)))
       (str_split group_sep file_in).


(** [main]: the two answers are printed one after the other. An exception
    of the parser, of [most_calories] or of the rendering of the first
    answer ends the run before anything is printed; an exception of the
    rendering of the second answer ends it after the first line. *)
Definition main (stdin : string) : run :=
  match parse_inventories stdin with
  | None => Run EmptyString true
  | Some inventories =>
      match most_calories inventories with
      | None => Run EmptyString true
      | Some most =>
          match py_str_checked most with
          | None => Run EmptyString true
          | Some first_line =>
              match py_str_checked (sum_of_top_three_calories inventories) with
              | None => Run (first_line +:+ line_sep) true
              | Some second_line =>
                  Run (first_line +:+ line_sep +:+ second_line +:+ line_sep) false
              end
          end
      end
  end.

(** An input file for given inventories, in the format of the doctest: one
    integer per line, each line closed by a line feed, an empty line
    between two inventories. *)
Definition render_inventory (inventory : ElfInventory) : string :=
  unlines (py_str <$> inventory).

Definition render_inventories (inventories : list ElfInventory) : string :=
  str_join line_sep (render_inventory <$> inventories).

Definition example_input : list ElfInventory :=
  [[1000; 2000; 3000]; [4000]; [5000; 6000]; [7000; 8000; 9000]; [10000]].

Definition example_text : string :=
  unlines ["1000"; "2000"; "3000"; ""; "4000"; ""; "5000"; "6000"; "";
           "7000"; "8000"; "9000"; ""; "10000"].

End Day01.

(** ** Day 4 *)

Module Day04.

Abbreviation SectionAssignment := (gset Z) (only parsing).
Abbreviation SectionAssignmentPair := (gset Z * gset Z)%type (only parsing).
Abbreviation SectionAssignmentList := (list (gset Z * gset Z)) (only parsing).

Definition one_fully_contains_the_other (a b : SectionAssignment) : bool :=
  bool_decide (a ⊆ b) || bool_decide (b ⊆ a).

Definition one_overlaps_the_other (a b : SectionAssignment) : bool :=
  negb (bool_decide (a ## b)).

Definition count_fully_overlapping_assignments (assignments : SectionAssignmentList) : Z :=
  py_sum ((λ '(a, b), if one_fully_contains_the_other a b then 1 else 0) <$> assignments).

Definition count_overlapping_assignments (assignments : SectionAssignmentList) : Z :=
  py_sum ((λ '(a, b), if one_overlaps_the_other a b then 1 else 0) <$> assignments).

(** [start, end = map(int, s.split("-"))]: the unpacking wants exactly two
    values, and each is an integer literal. Whether a literal or the count
    is found wrong first, what is raised is a [ValueError]. *)
Definition _str_to_assignment (s : string) : option SectionAssignment :=
  bounds ← mapM py_int (str_split "-" s);
  match bounds with
  | [start; end_] => Some (py_set (py_range start (end_ + 1)))
  | _ => None
  end.

(** [a, b, *_ = line.strip().split(",")]: at least two fields. *)
Definition _str_to_assignments_list (line : string) : option SectionAssignmentPair :=
  match str_split "," (str_strip line) with
  | a :: b :: _ =>
      x ← _str_to_assignment a;
      y ← _str_to_assignment b;
      Some (x, y)
  | _ => None
  end.

(** [file_in] is the text of the file, iterated line by line. *)
Definition parse_section_assignments (file_in : string) : option SectionAssignmentList :=
  mapM _str_to_assignments_list (readlines file_in).

(** [main]: the two counts are printed one after the other; an exception
    of the parser ends the run before anything is printed. *)
Definition main (stdin : string) : run :=
  match parse_section_assignments stdin with
  | None => Run EmptyString true
  | Some section_assignments =>
      Run (py_print (count_overlapping_assignments section_assignments)
             (py_print (count_fully_overlapping_assignments section_assignments)
                EmptyString))
          false
  end.

(** The bounds of the two ranges of a line, the sets they stand for, and
    an input file for given bounds: [start-end,start-end], each line closed
    by a line feed. *)
Abbreviation Bounds := ((Z * Z) * (Z * Z))%type (only parsing).

Definition range_set (r : Z * Z) : SectionAssignment := py_set (py_range r.1 (r.2 + 1)).

Definition bounds_sets (q : Bounds) : SectionAssignmentPair := (range_set q.1, range_set q.2).

Definition render_range (r : Z * Z) : string := py_str r.1 +:+ "-" +:+ py_str r.2.

Definition render_line (q : Bounds) : string := render_range q.1 +:+ "," +:+ render_range q.2.

Definition render_assignments (qs : list Bounds) : string := unlines (render_line <$> qs).

(** The two predicates on the bounds, as comparisons. *)
Definition bounds_contain (q : Bounds) : bool :=
  bool_decide (q.2.1 ≤ q.1.1 ∧ q.1.2 ≤ q.2.2) || bool_decide (q.1.1 ≤ q.2.1 ∧ q.2.2 ≤ q.1.2).

Definition bounds_overlap (q : Bounds) : bool :=
  bool_decide (q.1.1 ≤ q.2.2 ∧ q.2.1 ≤ q.1.2).

End Day04.

(** ** Checks of the embedding against the scripts' doctests *)

Example day04_contains_doctests :
  Day04.one_fully_contains_the_other (py_set [2; 3; 4]) (py_set [6; 7; 8]) = false
  ∧ Day04.one_fully_contains_the_other (py_set [5; 6; 7]) (py_set [7; 8; 9]) = false
  ∧ Day04.one_fully_contains_the_other (py_set [2; 3; 4; 5; 6; 7; 8]) (py_set [3; 4; 5; 6; 7]) = true
  ∧ Day04.one_fully_contains_the_other (py_set [6]) (py_set [4; 5; 6]) = true.
Proof. repeat split; vm_compute; reflexivity. Qed.

Example day04_overlaps_doctests :
  Day04.one_overlaps_the_other (py_set [2; 3; 4]) (py_set [6; 7; 8]) = false
  ∧ Day04.one_overlaps_the_other (py_set [5; 6; 7]) (py_set [7; 8; 9]) = true
  ∧ Day04.one_overlaps_the_other (py_set [2; 3; 4; 5; 6; 7; 8]) (py_set [3; 4; 5; 6; 7]) = true
  ∧ Day04.one_overlaps_the_other (py_set [6]) (py_set [4; 5; 6]) = true.
Proof. repeat split; vm_compute; reflexivity. Qed.

Example day04_parse_one_line :
  Day04.parse_section_assignments (unlines ["1-5,6-10"])
  = Some [(py_set [1; 2; 3; 4; 5], py_set [6; 7; 8; 9; 10])].
Proof. vm_compute. reflexivity. Qed.

(** ** Sums and maxima *)

Section Reducers.

Implicit Types (x m : Z) (xs ys : list Z).

Lemma fold_add_shift xs a : fold_left Z.add xs a = a + fold_left Z.add xs 0.
Proof.
  revert a. induction xs as [|y xs IH]; intros a; simpl; [lia|].
  rewrite (IH (a + y)), (IH (0 + y)). lia.
Qed.

Lemma py_sum_nil : py_sum [] = 0.
Proof. reflexivity. Qed.

Lemma py_sum_cons x xs : py_sum (x :: xs) = x + py_sum xs.
Proof. unfold py_sum. simpl. apply fold_add_shift. Qed.

Lemma py_sum_app xs ys : py_sum (xs ++ ys) = py_sum xs + py_sum ys.
Proof.
  induction xs as [|x xs IH]; simpl; [by rewrite py_sum_nil|].
  rewrite !py_sum_cons, IH. lia.
Qed.

(** The additions of [sum], made from the left, give the sum of the list. *)
Lemma py_sum_foldr xs : py_sum xs = foldr Z.add 0 xs.
Proof.
  induction xs as [|x xs IH]; [done|]. by rewrite py_sum_cons, IH.
Qed.

Lemma py_sum_perm xs ys : xs ≡ₚ ys → py_sum xs = py_sum ys.
Proof.
  induction 1 as [|x xs ys _ IH|x y xs|xs ys zs _ IH1 _ IH2];
    rewrite ?py_sum_cons; lia.
Qed.

Lemma fold_keep_greater xs x :
  let m := fold_left keep_greater xs x in
  (m = x ∨ m ∈ xs) ∧ x ≤ m ∧ ∀ y, y ∈ xs → y ≤ m.
Proof.
  revert x. induction xs as [|z xs IH]; intros x; simpl.
  - split; [by left|]. split; [lia|]. intros y Hy. by apply elem_of_nil in Hy.
  - destruct (IH (keep_greater x z)) as (Hin & Hle & Hall).
    assert (x ≤ keep_greater x z ∧ z ≤ keep_greater x z
            ∧ (keep_greater x z = x ∨ keep_greater x z = z)) as (Hx & Hz & Hk).
    { unfold keep_greater. case_bool_decide; lia. }
    split; [|split].
    + destruct Hin as [->|Hin]; [|right; by apply elem_of_cons; right].
      destruct Hk as [->| ->]; [by left|right; by apply elem_of_cons; left].
    + lia.
    + intros y [->|Hy]%elem_of_cons; [lia|by apply Hall].
Qed.

Lemma fold_keep_smaller xs x :
  let m := fold_left keep_smaller xs x in
  (m = x ∨ m ∈ xs) ∧ m ≤ x ∧ ∀ y, y ∈ xs → m ≤ y.
Proof.
  revert x. induction xs as [|z xs IH]; intros x; simpl.
  - split; [by left|]. split; [lia|]. intros y Hy. by apply elem_of_nil in Hy.
  - destruct (IH (keep_smaller x z)) as (Hin & Hle & Hall).
    assert (keep_smaller x z ≤ x ∧ keep_smaller x z ≤ z
            ∧ (keep_smaller x z = x ∨ keep_smaller x z = z)) as (Hx & Hz & Hk).
    { unfold keep_smaller. case_bool_decide; lia. }
    split; [|split].
    + destruct Hin as [->|Hin]; [|right; by apply elem_of_cons; right].
      destruct Hk as [->| ->]; [by left|right; by apply elem_of_cons; left].
    + lia.
    + intros y [->|Hy]%elem_of_cons; [lia|by apply Hall].
Qed.

(** [max] returns the greatest element, whatever the order of the list. *)
Lemma py_max_Some xs m :
  py_max xs = Some m ↔ m ∈ xs ∧ ∀ y, y ∈ xs → y ≤ m.
Proof.
  destruct xs as [|x xs]; simpl.
  - split; [discriminate|]. intros [H _]. by apply elem_of_nil in H.
  - pose proof (fold_keep_greater xs x) as (Hin & Hle & Hall).
    split.
    + intros [= <-]. split.
      * apply elem_of_cons. destruct Hin as [->|Hin]; auto.
      * intros y [->|Hy]%elem_of_cons; auto.
    + intros [Hm Hmax]. f_equal. apply Z.le_antisymm.
      * apply Hmax. apply elem_of_cons. destruct Hin as [->|Hin]; auto.
      * apply elem_of_cons in Hm as [->|Hm]; auto.
Qed.

Lemma py_min_Some xs m :
  py_min xs = Some m ↔ m ∈ xs ∧ ∀ y, y ∈ xs → m ≤ y.
Proof.
  destruct xs as [|x xs]; simpl.
  - split; [discriminate|]. intros [H _]. by apply elem_of_nil in H.
  - pose proof (fold_keep_smaller xs x) as (Hin & Hle & Hall).
    split.
    + intros [= <-]. split.
      * apply elem_of_cons. destruct Hin as [->|Hin]; auto.
      * intros y [->|Hy]%elem_of_cons; auto.
    + intros [Hm Hmin]. f_equal. apply Z.le_antisymm.
      * apply elem_of_cons in Hm as [->|Hm]; auto.
      * apply Hmin. apply elem_of_cons. destruct Hin as [->|Hin]; auto.
Qed.

Lemma py_max_None xs : py_max xs = None ↔ xs = [].
Proof. destruct xs; simpl; split; congruence. Qed.

Lemma py_max_is_Some xs : xs ≠ [] → is_Some (py_max xs).
Proof. destruct xs; [congruence|]. simpl. eauto. Qed.

Lemma py_max_perm xs ys : xs ≡ₚ ys → py_max xs = py_max ys.
Proof.
  intros Hp. destruct (py_max xs) as [m|] eqn:Hm.
  - symmetry. apply py_max_Some. apply py_max_Some in Hm as [Hin Hall].
    split; [by rewrite <- Hp|]. intros y Hy. apply Hall. by rewrite Hp.
  - apply py_max_None in Hm. subst xs. apply Permutation_nil_l in Hp. by subst ys.
Qed.

(** The descending order of [sorted(..., reverse=True)]. *)
#[local] Instance flip_le_total : Total (flip Z.le).
Proof. intros x y. unfold flip. lia. Qed.

#[local] Instance flip_le_antisymm : AntiSymm eq (flip Z.le).
Proof. intros x y. unfold flip. lia. Qed.

Lemma py_sorted_reverse_perm xs : py_sorted_reverse xs ≡ₚ xs.
Proof. apply merge_sort_Permutation. Qed.

Lemma py_sorted_reverse_sorted xs : StronglySorted (flip Z.le) (py_sorted_reverse xs).
Proof. apply StronglySorted_merge_sort; apply _. Qed.

(** Any descending arrangement of the same elements is the sorted list. *)
Lemma py_sorted_reverse_unique xs ys :
  ys ≡ₚ xs → Sorted (flip Z.le) ys → py_sorted_reverse xs = ys.
Proof.
  intros Hp Hs. apply (Sorted_unique (flip Z.le)); [|done|].
  - apply StronglySorted_Sorted, py_sorted_reverse_sorted.
  - by rewrite py_sorted_reverse_perm, Hp.
Qed.

End Reducers.

(** ** Day 1: the reducers *)

(** C2. On a non-empty list of inventories [most_calories] returns the
    greatest of the inventories' sums: the sum of the integers of one of
    them, and no inventory's sum exceeds it. It raises exactly on the empty
    list. On the inventories of the doctest the result is 24000, the sum
    of 7000, 8000 and 9000. *)
Theorem most_calories_spec (inventories : list (list Z)) :
  (inventories ≠ [] →
   ∃ m, Day01.most_calories inventories = Some m
        ∧ (∃ inventory, inventory ∈ inventories ∧ foldr Z.add 0 inventory = m)
        ∧ (∀ inventory, inventory ∈ inventories → foldr Z.add 0 inventory ≤ m))
  ∧ (Day01.most_calories inventories = None ↔ inventories = [])
  ∧ Day01.most_calories
      [[1000; 2000; 3000]; [4000]; [5000; 6000]; [7000; 8000; 9000]; [10000]]
    = Some 24000
  ∧ Day01.most_calories [[-5; 2]; [-1]; [-4; 1; 1]] = Some (-1).
Proof.
  unfold Day01.most_calories. split; [|split; [|split]].
  - intros Hne.
    destruct (py_max_is_Some (py_sum <$> inventories)) as [m Hm].
    { by destruct inventories. }
    exists m. split; [done|].
    apply py_max_Some in Hm as [Hin Hall]. split.
    + apply list_elem_of_fmap in Hin as (inventory & -> & Hin).
      exists inventory. split; [done|]. by rewrite py_sum_foldr.
    + intros inventory Hi. rewrite <- py_sum_foldr. apply Hall.
      by apply list_elem_of_fmap_2.
  - rewrite py_max_None. split; [apply fmap_nil_inv|by intros ->].
  - vm_compute. reflexivity.
  - vm_compute. reflexivity.
Qed.

(** C9. Reordering a non-empty list of inventories does not change the
    result of [most_calories], which is a value in both cases. *)
Theorem most_calories_permutation (inventories inventories' : list (list Z)) :
  inventories ≠ [] →
  inventories ≡ₚ inventories' →
  Day01.most_calories inventories' = Day01.most_calories inventories
  ∧ is_Some (Day01.most_calories inventories).
Proof.
  intros Hne Hp. unfold Day01.most_calories. split.
  - apply py_max_perm. by rewrite Hp.
  - apply py_max_is_Some. by destruct inventories.
Qed.

(** C9 at the two inventories of sums 6000 and 4000, exchanged. *)
Lemma most_calories_permutation_witness :
  Day01.most_calories [[4000]; [1000; 2000; 3000]]
    = Day01.most_calories [[1000; 2000; 3000]; [4000]]
  ∧ is_Some (Day01.most_calories [[1000; 2000; 3000]; [4000]]).
Proof.
  apply (most_calories_permutation [[1000; 2000; 3000]; [4000]]
                                   [[4000]; [1000; 2000; 3000]]).
  - discriminate.
  - apply perm_swap.
Defined.

(** C3. [sum_of_top_three_calories] adds up the three largest of the
    inventories' sums: the sums split into a part [top] of three elements
    (of all of them when there are fewer) and a part [rest] no element of
    which exceeds an element of [top], and the result is the sum of [top];
    it is the sum of the first three elements of any descending arrangement
    of the sums. With fewer than three inventories the result is the sum of
    all the sums: 15 for two inventories of sums 5 and 10, as for [[5]; [10]]
    and [[2; 3]; [4; 6]], and 0 for no inventory at all. On the inventories
    of the doctest the result is 45000. *)
Theorem sum_of_top_three_calories_spec (inventories : list (list Z)) :
  let sums := foldr Z.add 0 <$> inventories in
  let total := Day01.sum_of_top_three_calories inventories in
  (∃ top rest,
      sums ≡ₚ top ++ rest
      ∧ length top = Nat.min 3 (length inventories)
      ∧ (∀ x y, x ∈ top → y ∈ rest → y ≤ x)
      ∧ total = foldr Z.add 0 top)
  ∧ (∀ sorted_sums,
        sorted_sums ≡ₚ sums → Sorted (flip Z.le) sorted_sums →
        total = foldr Z.add 0 (take 3 sorted_sums))
  ∧ ((length inventories < 3)%nat → total = foldr Z.add 0 sums)
  ∧ (∀ a b, foldr Z.add 0 a = 5 → foldr Z.add 0 b = 10 →
            Day01.sum_of_top_three_calories [a; b] = 15)
  ∧ Day01.sum_of_top_three_calories [[5]; [10]] = 15
  ∧ Day01.sum_of_top_three_calories [[2; 3]; [4; 6]] = 15
  ∧ Day01.sum_of_top_three_calories [] = 0
  ∧ Day01.sum_of_top_three_calories
      [[1000; 2000; 3000]; [4000]; [5000; 6000]; [7000; 8000; 9000]; [10000]]
    = 45000.
Proof.
  intros sums total.
  assert (Hsums : sums = py_sum <$> inventories).
  { unfold sums. apply list_fmap_ext. intros _ xs _. by rewrite py_sum_foldr. }
  assert (Hshort : ∀ invs : list (list Z), (length invs < 3)%nat →
            Day01.sum_of_top_three_calories invs = py_sum (py_sum <$> invs)).
  { intros invs Hlen. unfold Day01.sum_of_top_three_calories.
    rewrite take_ge.
    - apply py_sum_perm, py_sorted_reverse_perm.
    - rewrite (Permutation_length (py_sorted_reverse_perm _)), length_fmap. lia. }
  rewrite Hsums. clear Hsums sums. set (sums := py_sum <$> inventories).
  split; [|split; [|split; [|split]]].
  - exists (take 3 (py_sorted_reverse sums)), (drop 3 (py_sorted_reverse sums)).
    split; [|split; [|split]].
    + by rewrite take_drop, py_sorted_reverse_perm.
    + rewrite length_take, (Permutation_length (py_sorted_reverse_perm _)).
      unfold sums. by rewrite length_fmap.
    + intros x y Hx Hy.
      pose proof (py_sorted_reverse_sorted sums) as Hs.
      rewrite <- (take_drop 3 (py_sorted_reverse sums)) in Hs.
      apply (StronglySorted_app_1_elem_of _ _ _ x y Hs Hx Hy).
    + by rewrite <- py_sum_foldr.
  - intros sorted_sums Hp Hs. unfold total, Day01.sum_of_top_three_calories.
    fold sums. by rewrite (py_sorted_reverse_unique sums sorted_sums Hp Hs), py_sum_foldr.
  - intros Hlen. rewrite <- py_sum_foldr. by apply Hshort.
  - intros a b Ha Hb. rewrite Hshort by (simpl; lia).
    simpl. rewrite !py_sum_cons, py_sum_nil, !py_sum_foldr, Ha, Hb. reflexivity.
  - repeat split; vm_compute; reflexivity.
Qed.

(** ** Day 4: the predicates and the counts *)

Section Counts.

Implicit Types (a b : gset Z) (pairs : list (gset Z * gset Z)).

Lemma count_fully_overlapping_cons a b pairs :
  Day04.count_fully_overlapping_assignments ((a, b) :: pairs)
  = (if Day04.one_fully_contains_the_other a b then 1 else 0)
    + Day04.count_fully_overlapping_assignments pairs.
Proof.
  unfold Day04.count_fully_overlapping_assignments.
  by rewrite fmap_cons, py_sum_cons.
Qed.

Lemma count_overlapping_cons a b pairs :
  Day04.count_overlapping_assignments ((a, b) :: pairs)
  = (if Day04.one_overlaps_the_other a b then 1 else 0)
    + Day04.count_overlapping_assignments pairs.
Proof.
  unfold Day04.count_overlapping_assignments.
  by rewrite fmap_cons, py_sum_cons.
Qed.

Lemma fully_contains_empty_l b : Day04.one_fully_contains_the_other ∅ b = true.
Proof.
  unfold Day04.one_fully_contains_the_other.
  rewrite (bool_decide_eq_true_2 (∅ ⊆ b)); [done|set_solver].
Qed.

Lemma overlaps_empty_l b : Day04.one_overlaps_the_other ∅ b = false.
Proof.
  unfold Day04.one_overlaps_the_other.
  rewrite (bool_decide_eq_true_2 (∅ ## b)); [done|set_solver].
Qed.

Lemma fully_contains_comm a b :
  Day04.one_fully_contains_the_other a b = Day04.one_fully_contains_the_other b a.
Proof. unfold Day04.one_fully_contains_the_other. apply orb_comm. Qed.

Lemma overlaps_comm a b :
  Day04.one_overlaps_the_other a b = Day04.one_overlaps_the_other b a.
Proof.
  unfold Day04.one_overlaps_the_other. f_equal.
  apply bool_decide_ext. split; intros H; by symmetry.
Qed.

(** Between two non-empty sets, containment implies a common element. *)
Lemma fully_contains_overlaps a b :
  a ≠ ∅ → b ≠ ∅ →
  Day04.one_fully_contains_the_other a b = true →
  Day04.one_overlaps_the_other a b = true.
Proof.
  intros [x Hx]%set_choose_L [y Hy]%set_choose_L.
  unfold Day04.one_fully_contains_the_other, Day04.one_overlaps_the_other.
  intros H. apply negb_true_iff, bool_decide_eq_false_2.
  apply orb_true_iff in H as [H|H]; apply bool_decide_eq_true_1 in H; set_solver.
Qed.

Lemma py_range_inverted s e : e < s → py_set (py_range s (e + 1)) = ∅.
Proof.
  intros H. unfold py_set, py_range. rewrite seqZ_nil by lia. done.
Qed.

Lemma elem_of_py_range_set s e x : x ∈ py_set (py_range s (e + 1)) ↔ s ≤ x ≤ e.
Proof.
  unfold py_set, py_range. rewrite elem_of_list_to_set, elem_of_seqZ. lia.
Qed.

End Counts.

(** C1. The six example lines parse to the six pairs of the doctest, of
    which two have one assignment containing the other and four overlap. *)
Theorem day04_example_counts :
  ∃ pairs,
    Day04.parse_section_assignments
      (unlines ["2-4,6-8"; "2-3,4-5"; "5-7,7-9"; "2-8,3-7"; "6-6,4-6"; "2-6,4-8"])
    = Some pairs
    ∧ pairs = [(py_set [2; 3; 4], py_set [6; 7; 8]);
               (py_set [2; 3], py_set [4; 5]);
               (py_set [5; 6; 7], py_set [7; 8; 9]);
               (py_set [2; 3; 4; 5; 6; 7; 8], py_set [3; 4; 5; 6; 7]);
               (py_set [6], py_set [4; 5; 6]);
               (py_set [2; 3; 4; 5; 6], py_set [4; 5; 6; 7; 8])]
    ∧ Day04.count_fully_overlapping_assignments pairs = 2
    ∧ Day04.count_overlapping_assignments pairs = 4.
Proof.
  eexists. split; [|split; [reflexivity|split]]; vm_compute; reflexivity.
Qed.

(** C4. Both predicates give the same answer when the two assignments are
    exchanged. *)
Theorem overlap_predicates_symmetric (a b : gset Z) :
  Day04.one_fully_contains_the_other a b = Day04.one_fully_contains_the_other b a
  ∧ Day04.one_overlaps_the_other a b = Day04.one_overlaps_the_other b a.
Proof. split; [apply fully_contains_comm|apply overlaps_comm]. Qed.

(** C10, the claim as written, at the two lines ["5-3,1-2"] and ["1-2,2-3"]:
    the first pair holds an empty set, and yet the count of containing
    pairs (1) does not exceed the count of overlapping pairs (1). *)
Lemma counts_ordered_despite_empty_set :
  Day04.parse_section_assignments (unlines ["5-3,1-2"; "1-2,2-3"])
  = Some [(∅, py_set [1; 2]); (py_set [1; 2], py_set [2; 3])]
  ∧ Day04.count_fully_overlapping_assignments
      [(∅, py_set [1; 2]); (py_set [1; 2], py_set [2; 3])] = 1
  ∧ Day04.count_overlapping_assignments
      [(∅, py_set [1; 2]); (py_set [1; 2], py_set [2; 3])] = 1
  ∧ ¬ (Day04.count_fully_overlapping_assignments
         [(∅, py_set [1; 2]); (py_set [1; 2], py_set [2; 3])]
       ≤ Day04.count_overlapping_assignments
           [(∅, py_set [1; 2]); (py_set [1; 2], py_set [2; 3])]
       → Forall (λ p : gset Z * gset Z, p.1 ≠ ∅ ∧ p.2 ≠ ∅)
           [(∅, py_set [1; 2]); (py_set [1; 2], py_set [2; 3])]).
Proof.
  split; [vm_compute; reflexivity|].
  split; [vm_compute; reflexivity|].
  split; [vm_compute; reflexivity|].
  intros H.
  assert (Hle : Day04.count_fully_overlapping_assignments
                  [(∅, py_set [1; 2]); (py_set [1; 2], py_set [2; 3])]
                ≤ Day04.count_overlapping_assignments
                    [(∅, py_set [1; 2]); (py_set [1; 2], py_set [2; 3])]).
  { vm_compute. discriminate. }
  apply H in Hle. apply Forall_cons_1 in Hle as [[Hne _] _]. by apply Hne.
Qed.

(** C10, amended. The empty set is contained in every set and overlaps
    none. A field whose bounds are inverted parses to the empty set, and a
    pair holding an empty set adds one to the count of containing pairs and
    nothing to the count of overlapping pairs. The count of containing
    pairs is at most the count of overlapping pairs for every list whose
    pairs hold no empty set; it exceeds it for the single line ["5-3,1-2"]. *)
Theorem empty_assignment_counts :
  (∀ b : gset Z,
      Day04.one_fully_contains_the_other ∅ b = true
      ∧ Day04.one_overlaps_the_other ∅ b = false)
  ∧ (∀ field x y s e,
        str_split "-" field = [x; y] → py_int x = Some s → py_int y = Some e →
        e < s → Day04._str_to_assignment field = Some ∅)
  ∧ (∀ (a b : gset Z) pairs,
        a = ∅ ∨ b = ∅ →
        Day04.count_fully_overlapping_assignments ((a, b) :: pairs)
        = 1 + Day04.count_fully_overlapping_assignments pairs
        ∧ Day04.count_overlapping_assignments ((a, b) :: pairs)
          = Day04.count_overlapping_assignments pairs)
  ∧ (∀ pairs : list (gset Z * gset Z),
        Forall (λ p, p.1 ≠ ∅ ∧ p.2 ≠ ∅) pairs →
        Day04.count_fully_overlapping_assignments pairs
        ≤ Day04.count_overlapping_assignments pairs)
  ∧ (Day04.parse_section_assignments (unlines ["5-3,1-2"]) = Some [(∅, py_set [1; 2])]
     ∧ Day04.count_fully_overlapping_assignments [(∅, py_set [1; 2])] = 1
     ∧ Day04.count_overlapping_assignments [(∅, py_set [1; 2])] = 0).
Proof.
  split; [|split; [|split; [|split]]].
  - intros b. split; [apply fully_contains_empty_l|apply overlaps_empty_l].
  - intros field x y s e Hsplit Hx Hy Hlt.
    unfold Day04._str_to_assignment. rewrite Hsplit. simpl.
    rewrite Hx, Hy. simpl. by rewrite py_range_inverted.
  - intros a b pairs Hempty.
    rewrite count_fully_overlapping_cons, count_overlapping_cons.
    destruct Hempty as [-> | ->].
    + by rewrite fully_contains_empty_l, overlaps_empty_l.
    + rewrite (fully_contains_comm a ∅), (overlaps_comm a ∅).
      by rewrite fully_contains_empty_l, overlaps_empty_l.
  - induction 1 as [|[a b] pairs [Ha Hb] _ IH]; [done|].
    rewrite count_fully_overlapping_cons, count_overlapping_cons.
    simpl in Ha, Hb.
    destruct (Day04.one_fully_contains_the_other a b) eqn:Hfull.
    + rewrite (fully_contains_overlaps a b Ha Hb Hfull). lia.
    + destruct (Day04.one_overlaps_the_other a b); lia.
  - repeat split; vm_compute; reflexivity.
Qed.

(** ** Strings: trimming, splitting and integer literals *)

Section Strings.

Implicit Types (c : ascii) (s t : string).

Lemma isdigit_not_space c : isdigit c = true → isspace c = false.
Proof.
  unfold isdigit, isspace. cbv zeta. intros H.
  apply andb_true_iff in H as [H1 H2].
  apply Nat.leb_le in H1. apply Nat.leb_le in H2.
  repeat (apply orb_false_iff; split).
  - apply andb_false_iff. right. apply Nat.leb_gt. lia.
  - apply andb_false_iff. right. apply Nat.leb_gt. lia.
  - apply Nat.eqb_neq. lia.
  - apply Nat.eqb_neq. lia.
Qed.

Lemma isdigit_not_char c c' : isdigit c = true → isdigit c' = false → Ascii.eqb c c' = false.
Proof. intros H H'. apply Ascii.eqb_neq. congruence. Qed.

Lemma str_rstrip_no_space s : all_chars (λ c, negb (isspace c)) s = true → str_rstrip s = s.
Proof.
  induction s as [|c s IH]; simpl; [done|].
  intros [Hc Hs]%andb_true_iff. rewrite (IH Hs).
  apply negb_true_iff in Hc. rewrite Hc. by destruct s.
Qed.

Lemma str_strip_no_space s : all_chars (λ c, negb (isspace c)) s = true → str_strip s = s.
Proof.
  intros H. unfold str_strip.
  assert (str_lstrip s = s) as ->; [|by apply str_rstrip_no_space].
  destruct s as [|c s]; simpl in *; [done|].
  apply andb_true_iff in H as [Hc _]. apply negb_true_iff in Hc. by rewrite Hc.
Qed.

Lemma all_chars_impl (P Q : ascii → bool) s :
  (∀ c, P c = true → Q c = true) → all_chars P s = true → all_chars Q s = true.
Proof.
  intros HPQ. induction s as [|c s IH]; simpl; [done|].
  intros [Hc Hs]%andb_true_iff. rewrite (HPQ c Hc). simpl. auto.
Qed.

Lemma str_strip_digits s : all_chars isdigit s = true → str_strip s = s.
Proof.
  intros H. apply str_strip_no_space. revert H. apply all_chars_impl.
  intros c Hc. by rewrite (isdigit_not_space c Hc).
Qed.

Lemma str_strip_empty : str_strip "" = "".
Proof. reflexivity. Qed.

(** The whitespace of [int] is whitespace of [str.strip]. *)
Lemma int_isspace_isspace c : int_isspace c = true → isspace c = true.
Proof.
  unfold int_isspace, isspace. cbv zeta. intros H.
  repeat (apply orb_true_iff in H as [H|H]).
  - by rewrite H.
  - apply Nat.eqb_eq in H. rewrite H. done.
  - by rewrite H, !orb_true_r.
  - by rewrite H, !orb_true_r.
Qed.

Lemma not_isspace_not_int_isspace c : isspace c = false → int_isspace c = false.
Proof.
  intros H. destruct (int_isspace c) eqn:E; [|done].
  apply int_isspace_isspace in E. congruence.
Qed.

Lemma int_rstrip_no_space s :
  all_chars (λ c, negb (isspace c)) s = true → int_rstrip s = s.
Proof.
  induction s as [|c s IH]; simpl; [done|].
  intros [Hc Hs]%andb_true_iff. rewrite (IH Hs).
  apply negb_true_iff, not_isspace_not_int_isspace in Hc. rewrite Hc. by destruct s.
Qed.

Lemma int_strip_no_space s :
  all_chars (λ c, negb (isspace c)) s = true → int_strip s = s.
Proof.
  intros H. unfold int_strip.
  assert (int_lstrip s = s) as ->; [|by apply int_rstrip_no_space].
  destruct s as [|c s]; simpl in *; [done|].
  apply andb_true_iff in H as [Hc _].
  apply negb_true_iff, not_isspace_not_int_isspace in Hc. by rewrite Hc.
Qed.

Lemma int_strip_digits s : all_chars isdigit s = true → int_strip s = s.
Proof.
  intros H. apply int_strip_no_space. revert H. apply all_chars_impl.
  intros c Hc. by rewrite (isdigit_not_space c Hc).
Qed.

(** Splitting on a single character. *)
Lemma prefix_single c c' s : String.prefix (String c "") (String c' s) = Ascii.eqb c c'.
Proof.
  simpl. destruct (ascii_dec c c') as [->|Hne].
  - rewrite Ascii.eqb_refl. by destruct s.
  - symmetry. by apply Ascii.eqb_neq.
Qed.

Lemma split_from_0_cons sep c s :
  split_from sep 0 (String c s)
  = if String.prefix sep (String c s)
    then (EmptyString,
          let '(p, ps) := split_from sep (String.length sep - 1) s in p :: ps)
    else let '(p, ps) := split_from sep 0 s in (String c p, ps).
Proof. reflexivity. Qed.

Lemma split_from_S_cons sep k c s : split_from sep (S k) (String c s) = split_from sep k s.
Proof. reflexivity. Qed.

Lemma str_app_nil_l s : "" +:+ s = s.
Proof. reflexivity. Qed.

Lemma str_app_cons c s t : String c s +:+ t = String c (s +:+ t).
Proof. reflexivity. Qed.

Lemma split_from_single_absent c s :
  all_chars (λ c', negb (Ascii.eqb c c')) s = true →
  split_from (String c "") 0 s = (s, []).
Proof.
  induction s as [|c' s IH]; [done|].
  intros [Hc Hs]%andb_true_iff. apply negb_true_iff in Hc.
  rewrite split_from_0_cons, prefix_single, Hc, (IH Hs). done.
Qed.

Lemma split_from_single_first c s t :
  all_chars (λ c', negb (Ascii.eqb c c')) s = true →
  split_from (String c "") 0 (s +:+ String c t)
  = (s, let '(p, ps) := split_from (String c "") 0 t in p :: ps).
Proof.
  induction s as [|c' s IH].
  - intros _. rewrite str_app_nil_l, split_from_0_cons, prefix_single, Ascii.eqb_refl.
    done.
  - intros [Hc Hs]%andb_true_iff. apply negb_true_iff in Hc.
    rewrite str_app_cons, split_from_0_cons, prefix_single, Hc, (IH Hs). done.
Qed.

Lemma str_split_single_absent c s :
  all_chars (λ c', negb (Ascii.eqb c c')) s = true → str_split (String c "") s = [s].
Proof. intros H. unfold str_split. by rewrite split_from_single_absent. Qed.

Lemma str_split_single_first c s t :
  all_chars (λ c', negb (Ascii.eqb c c')) s = true →
  str_split (String c "") (s +:+ String c t) = s :: str_split (String c "") t.
Proof. intros H. unfold str_split. by rewrite split_from_single_first. Qed.

Lemma str_split_empty sep : str_split sep "" = [""].
Proof. reflexivity. Qed.

End Strings.

(** ** Integer literals and the decimal rendering *)

Section Literals.

Implicit Types (c : ascii) (s : string) (d : Decimal.uint) (n : Z).

(** Replaces the value of a literal digit by its numeral. *)
Ltac eval_digit_value :=
  repeat match goal with
    | |- context [digit_value ?c] =>
        let v := eval vm_compute in (digit_value c) in
        change (digit_value c) with v
    end.

Lemma digits_from_digit b acc c s :
  isdigit c = true →
  digits_from b acc (String c s) = digits_from false (10 * acc + digit_value c) s.
Proof. intros H. simpl. by rewrite H. Qed.

Lemma uint_all_digits d : all_chars isdigit (NilEmpty.string_of_uint d) = true.
Proof. induction d; simpl; auto. Qed.

Lemma digits_from_uint_acc d (p : positive) :
  digits_from false (Z.pos p) (NilEmpty.string_of_uint d)
  = Some (Z.pos (Pos.of_uint_acc d p)).
Proof.
  revert p. induction d as [|d IH|d IH|d IH|d IH|d IH|d IH|d IH|d IH|d IH|d IH];
    intros p; [done|..];
    cbn [NilEmpty.string_of_uint Pos.of_uint_acc];
    rewrite digits_from_digit by reflexivity;
    rewrite <- IH; f_equal; eval_digit_value; lia.
Qed.

Lemma digits_from_uint d :
  digits_from false 0 (NilEmpty.string_of_uint d) = Some (Z.of_N (Pos.of_uint d)).
Proof.
  induction d as [|d IH|d IH|d IH|d IH|d IH|d IH|d IH|d IH|d IH|d IH];
    [done|..];
    cbn [NilEmpty.string_of_uint Pos.of_uint];
    rewrite digits_from_digit by reflexivity;
    eval_digit_value; [exact IH|exact (digits_from_uint_acc d _)..].
Qed.

(** The rendering of a positive number: digits, at least one, that read
    back as the number. *)
Lemma pos_rendering (p : positive) :
  ∃ c s, NilEmpty.string_of_uint (Pos.to_uint p) = String c s
         ∧ all_chars isdigit (String c s) = true
         ∧ digits (String c s) = Some (Z.pos p).
Proof.
  pose proof (uint_all_digits (Pos.to_uint p)) as Hall.
  pose proof (digits_from_uint (Pos.to_uint p)) as Hval.
  rewrite Unsigned.of_to in Hval.
  destruct (NilEmpty.string_of_uint (Pos.to_uint p)) as [|c s] eqn:E.
  - discriminate Hval.
  - exists c, s. split; [done|]. split; [done|].
    unfold digits. simpl in Hall. apply andb_true_iff in Hall as [Hc _].
    by rewrite Hc.
Qed.

Lemma pos_rendering_NilZero (p : positive) :
  NilZero.string_of_uint (Pos.to_uint p) = NilEmpty.string_of_uint (Pos.to_uint p).
Proof.
  pose proof (Unsigned.to_uint_nonnil p). by destruct (Pos.to_uint p).
Qed.

(** The rendering of a natural number consists of digits. *)
Lemma py_str_digits n : 0 ≤ n → all_chars isdigit (py_str n) = true.
Proof.
  intros Hn. destruct n as [|p|p]; [done| |lia].
  unfold py_str. simpl. rewrite pos_rendering_NilZero. apply uint_all_digits.
Qed.

(** [int(str(n))] is [n], for every integer. *)
Lemma py_int_py_str n : py_int (py_str n) = Some n.
Proof.
  destruct n as [|p|p]; [done|..]; unfold py_str; simpl;
    rewrite pos_rendering_NilZero;
    destruct (pos_rendering p) as (c & s & E & Hall & Hval); rewrite E.
  - unfold py_int. rewrite (int_strip_digits _ Hall).
    simpl in Hall. apply andb_true_iff in Hall as [Hc _].
    rewrite !(isdigit_not_char c) by done. exact Hval.
  - unfold py_int.
    assert (int_strip (String "-" (String c s)) = String "-" (String c s)) as ->.
    { apply int_strip_no_space. simpl.
      revert Hall. simpl. intros [Hc Hs]%andb_true_iff.
      rewrite (isdigit_not_space c Hc). simpl.
      revert Hs. apply all_chars_impl. intros c' Hc'.
      by rewrite (isdigit_not_space c' Hc'). }
    rewrite Ascii.eqb_refl, Hval. done.
Qed.

Lemma digits_no_hyphen s :
  all_chars isdigit s = true → all_chars (λ c', negb (Ascii.eqb "-" c')) s = true.
Proof.
  apply all_chars_impl. intros c Hc. apply negb_true_iff, Ascii.eqb_neq.
  intros <-. discriminate Hc.
Qed.

End Literals.

(** ** Day 4: the range fields *)

(** C5, the claim as written, at s = -3 and e = 5: the rendering ["-3-5"]
    splits on the hyphen into three parts, the first one empty, and the
    field does not parse. *)
Lemma negative_start_does_not_parse :
  -3 ≤ 5
  ∧ py_str (-3) +:+ "-" +:+ py_str 5 = "-3-5"
  ∧ str_split "-" "-3-5" = [""; "3"; "5"]
  ∧ Day04._str_to_assignment (py_str (-3) +:+ "-" +:+ py_str 5) = None.
Proof. split; [lia|]. repeat split; vm_compute; reflexivity. Qed.

(** C5, amended. For 0 ≤ s ≤ e the field "s-e" parses to the set of the
    integers from s to e: its minimum is s and its maximum is e. *)
Theorem str_to_assignment_round_trip (s e : Z) :
  0 ≤ s → s ≤ e →
  ∃ X : gset Z,
    Day04._str_to_assignment (py_str s +:+ "-" +:+ py_str e) = Some X
    ∧ (∀ x, x ∈ X ↔ s ≤ x ≤ e)
    ∧ py_min (elements X) = Some s
    ∧ py_max (elements X) = Some e.
Proof.
  intros Hs Hse.
  exists (py_set (py_range s (e + 1))).
  assert (Hin : ∀ x, x ∈ py_set (py_range s (e + 1)) ↔ s ≤ x ≤ e)
    by apply elem_of_py_range_set.
  split; [|split; [done|split]].
  - unfold Day04._str_to_assignment.
    rewrite str_app_cons, str_app_nil_l.
    rewrite str_split_single_first by (apply digits_no_hyphen, py_str_digits; lia).
    rewrite str_split_single_absent by (apply digits_no_hyphen, py_str_digits; lia).
    simpl. rewrite !py_int_py_str. reflexivity.
  - apply py_min_Some. split.
    + apply elem_of_elements, Hin. lia.
    + intros y Hy%elem_of_elements%Hin. lia.
  - apply py_max_Some. split.
    + apply elem_of_elements, Hin. lia.
    + intros y Hy%elem_of_elements%Hin. lia.
Qed.

(** C5, amended, at the field ["2-4"]. *)
Lemma str_to_assignment_round_trip_witness :
  ∃ X : gset Z,
    Day04._str_to_assignment (py_str 2 +:+ "-" +:+ py_str 4) = Some X
    ∧ (∀ x, x ∈ X ↔ 2 ≤ x ≤ 4)
    ∧ py_min (elements X) = Some 2
    ∧ py_max (elements X) = Some 4.
Proof. apply (str_to_assignment_round_trip 2 4); lia. Defined.

(** C6. Of the comma-separated fields of a line only the first two are
    read: the pair is that of the two fields, and two files whose lines
    agree on their first two fields parse alike, as do ["1-2,3-4,x,5"] and
    ["1-2,3-4"]. The parser raises when a line has fewer than two fields,
    when one of its two fields does not split on the hyphen into exactly
    two parts, or when a part is not an integer literal; and the failure
    of one line is the failure of the whole file. *)
Theorem parse_section_assignments_fields :
  (∀ line a b extra,
      str_split "," (str_strip line) = a :: b :: extra →
      Day04._str_to_assignments_list line
      = (x ← Day04._str_to_assignment a; y ← Day04._str_to_assignment b; Some (x, y)))
  ∧ (∀ file_in file_in',
        Forall2 (λ line line', ∃ a b extra extra',
                   str_split "," (str_strip line) = a :: b :: extra
                   ∧ str_split "," (str_strip line') = a :: b :: extra')
                (readlines file_in) (readlines file_in') →
        Day04.parse_section_assignments file_in = Day04.parse_section_assignments file_in')
  ∧ (Day04.parse_section_assignments (unlines ["1-2,3-4,x,5"])
     = Some [(py_set [1; 2], py_set [3; 4])]
     ∧ Day04.parse_section_assignments (unlines ["1-2,3-4"])
       = Some [(py_set [1; 2], py_set [3; 4])])
  ∧ (∀ line, (length (str_split "," (str_strip line)) < 2)%nat →
             Day04._str_to_assignments_list line = None)
  ∧ (∀ field, length (str_split "-" field) ≠ 2%nat →
              Day04._str_to_assignment field = None)
  ∧ (∀ field part, part ∈ str_split "-" field → py_int part = None →
                   Day04._str_to_assignment field = None)
  ∧ (∀ line a b extra,
        str_split "," (str_strip line) = a :: b :: extra →
        Day04._str_to_assignment a = None ∨ Day04._str_to_assignment b = None →
        Day04._str_to_assignments_list line = None)
  ∧ (∀ file_in line,
        line ∈ readlines file_in → Day04._str_to_assignments_list line = None →
        Day04.parse_section_assignments file_in = None).
Proof.
  assert (Hfields : ∀ line a b extra,
            str_split "," (str_strip line) = a :: b :: extra →
            Day04._str_to_assignments_list line
            = (x ← Day04._str_to_assignment a; y ← Day04._str_to_assignment b; Some (x, y))).
  { intros line a b extra H. unfold Day04._str_to_assignments_list. by rewrite H. }
  split; [exact Hfields|].
  split; [|split; [|split; [|split; [|split; [|split]]]]].
  - intros file_in file_in' H. unfold Day04.parse_section_assignments.
    apply Forall2_mapM_ext. eapply Forall2_impl; [exact H|].
    intros line line' (a & b & extra & extra' & Hl & Hl'). simpl in *.
    by rewrite (Hfields _ _ _ _ Hl), (Hfields _ _ _ _ Hl').
  - split; vm_compute; reflexivity.
  - intros line Hlen. unfold Day04._str_to_assignments_list.
    destruct (str_split "," (str_strip line)) as [|a [|b extra]]; simpl in *; [done|done|lia].
  - intros field Hlen. unfold Day04._str_to_assignment.
    destruct (mapM py_int (str_split "-" field)) as [bounds|] eqn:E; [|done].
    apply length_mapM in E. simpl.
    destruct bounds as [|s [|e [|x bounds]]]; simpl in *; done.
  - intros field part Hin Hpart. unfold Day04._str_to_assignment.
    rewrite (mapM_None_2 py_int (str_split "-" field)); [done|].
    apply Exists_exists. eauto.
  - intros line a b extra Hsplit Hnone. rewrite (Hfields _ _ _ _ Hsplit).
    destruct Hnone as [-> | ->]; [done|].
    by destruct (Day04._str_to_assignment a).
  - intros file_in line Hin Hline. unfold Day04.parse_section_assignments.
    apply mapM_None_2, Exists_exists. eauto.
Qed.

(** ** Day 1: the parser *)

Section Parser.

Implicit Types (text group line : string).

Lemma mapM_fmap_compose {A B C} (f : B → option C) (g : A → B) (l : list A) :
  mapM f (g <$> l) = mapM (f ∘ g) l.
Proof.
  induction l as [|x l IH]; csimpl; [done|].
  destruct (f (g x)) as [y|]; [|done].
  exact (f_equal (λ m : option (list C), m ≫= λ k, Some (y :: k)) IH).
Qed.

(** A group that trims to nothing holds one line, the empty one, which is
    no integer literal. *)
Lemma blank_group_fails group :
  str_strip group = "" →
  str_split line_sep (str_strip group) = [""]
  ∧ mapM py_int (str_split line_sep (str_strip group)) = None.
Proof. intros ->. split; reflexivity. Qed.

(** A text that ends with the group separator: whether the scan starts on a
    fresh character or has one character of an earlier separator to pass
    over, the last piece trims to nothing. *)
Lemma split_from_trailing_group_sep text :
  (∃ p ps group,
      split_from group_sep 0 (text +:+ group_sep) = (p, ps)
      ∧ last ps = Some group ∧ str_strip group = "")
  ∧ (∃ p ps group,
        split_from group_sep 1 (text +:+ group_sep) = (p, ps)
        ∧ last (p :: ps) = Some group ∧ str_strip group = "").
Proof.
  induction text as [|c text [IH0 IH1]].
  - split.
    + exists "", [""], "". repeat split; reflexivity.
    + exists line_sep, [], line_sep. repeat split; reflexivity.
  - destruct IH0 as (p0 & ps0 & g0 & E0 & Hlast0 & Hg0).
    destruct IH1 as (p1 & ps1 & g1 & E1 & Hlast1 & Hg1).
    split.
    + rewrite str_app_cons, split_from_0_cons.
      change (String.length group_sep - 1)%nat with 1%nat.
      rewrite E0, E1.
      destruct (String.prefix group_sep (String c (text +:+ group_sep))).
      * exists "", (p1 :: ps1), g1. done.
      * exists (String c p0), ps0, g0. done.
    + rewrite str_app_cons, split_from_S_cons, E0.
      exists p0, ps0, g0. split; [done|]. split; [|done].
      destruct ps0; [done|]. exact Hlast0.
Qed.

Lemma str_split_trailing_group_sep text :
  ∃ group, last (str_split group_sep (text +:+ group_sep)) = Some group
           ∧ str_strip group = "".
Proof.
  destruct (split_from_trailing_group_sep text) as [(p & ps & g & E & Hlast & Hg) _].
  exists g. split; [|done]. unfold str_split. rewrite E.
  destruct ps; [done|]. exact Hlast.
Qed.

End Parser.

(** C8. When the last group of a text trims to nothing, its only line is
    the empty string, which [int] refuses, and [parse_inventories] raises
    instead of returning the groups before it. Every text that ends with
    two line feeds has such a last group; the example text of the doctest
    followed by one more line feed is one, and does not parse, while the
    example text itself does. *)
Theorem parse_inventories_trailing_group :
  (∀ text group,
      last (str_split group_sep text) = Some group → str_strip group = "" →
      str_split line_sep (str_strip group) = [""]
      ∧ py_int "" = None
      ∧ Day01.parse_inventories text = None)
  ∧ (∀ text,
        (∃ group, last (str_split group_sep (text +:+ group_sep)) = Some group
                  ∧ str_strip group = "")
        ∧ Day01.parse_inventories (text +:+ group_sep) = None)
  ∧ (Day01.parse_inventories Day01.example_text = Some Day01.example_input
     ∧ Day01.parse_inventories (Day01.example_text +:+ line_sep) = None).
Proof.
  assert (Hlast : ∀ text group,
            last (str_split group_sep text) = Some group → str_strip group = "" →
            Day01.parse_inventories text = None).
  { intros text group Hl Hg. unfold Day01.parse_inventories.
    apply mapM_None_2, Exists_exists. exists group. split.
    - apply last_Some in Hl as [l' ->]. apply elem_of_app. right. apply elem_of_cons. by left.
    - by apply blank_group_fails. }
  split; [|split].
  - intros text group Hl Hg. split; [by apply blank_group_fails|]. split; [done|]. eauto.
  - intros text. destruct (str_split_trailing_group_sep text) as (group & Hl & Hg).
    split; eauto.
  - split; vm_compute; reflexivity.
Qed.

(** ** Further properties *)

(** On two ranges with start ≤ end the set predicates are comparisons of
    the bounds. *)
Lemma range_predicates_bounds (s1 e1 s2 e2 : Z) :
  s1 ≤ e1 → s2 ≤ e2 →
  Day04.one_fully_contains_the_other
    (py_set (py_range s1 (e1 + 1))) (py_set (py_range s2 (e2 + 1)))
  = bool_decide (s2 ≤ s1 ∧ e1 ≤ e2) || bool_decide (s1 ≤ s2 ∧ e2 ≤ e1)
  ∧ Day04.one_overlaps_the_other
      (py_set (py_range s1 (e1 + 1))) (py_set (py_range s2 (e2 + 1)))
    = bool_decide (s1 ≤ e2 ∧ s2 ≤ e1).
Proof.
  intros H1 H2.
  assert (Hsub : ∀ s e s' e', s ≤ e →
            py_set (py_range s (e + 1)) ⊆ py_set (py_range s' (e' + 1))
            ↔ s' ≤ s ∧ e ≤ e').
  { intros s e s' e' Hse. rewrite elem_of_subseteq. split.
    - intros H.
      pose proof (proj1 (elem_of_py_range_set s' e' s)
                    (H s (proj2 (elem_of_py_range_set s e s) ltac:(lia)))).
      pose proof (proj1 (elem_of_py_range_set s' e' e)
                    (H e (proj2 (elem_of_py_range_set s e e) ltac:(lia)))).
      lia.
    - intros H x Hx%elem_of_py_range_set. apply elem_of_py_range_set. lia. }
  unfold Day04.one_fully_contains_the_other, Day04.one_overlaps_the_other. split.
  - f_equal; apply bool_decide_ext; by apply Hsub.
  - destruct (decide (s1 ≤ e2 ∧ s2 ≤ e1)) as [Hyes|Hno].
    + rewrite (bool_decide_eq_true_2 _ Hyes). apply negb_true_iff, bool_decide_eq_false_2.
      rewrite elem_of_disjoint. intros H.
      apply (H (Z.max s1 s2)); apply elem_of_py_range_set; lia.
    + rewrite (bool_decide_eq_false_2 _ Hno). apply negb_false_iff, bool_decide_eq_true_2.
      rewrite elem_of_disjoint.
      intros x Hx%elem_of_py_range_set Hx'%elem_of_py_range_set. lia.
Qed.

(** X1. On two ranges with start ≤ end, the set predicates are the
    comparisons of the bounds: containment is the inclusion of one interval
    in the other, overlap is each start being at most the other end. *)
Theorem range_predicates_as_bounds (s1 e1 s2 e2 : Z) :
  s1 ≤ e1 → s2 ≤ e2 →
  Day04.one_fully_contains_the_other
    (py_set (py_range s1 (e1 + 1))) (py_set (py_range s2 (e2 + 1)))
  = bool_decide (s2 ≤ s1 ∧ e1 ≤ e2) || bool_decide (s1 ≤ s2 ∧ e2 ≤ e1)
  ∧ Day04.one_overlaps_the_other
      (py_set (py_range s1 (e1 + 1))) (py_set (py_range s2 (e2 + 1)))
    = bool_decide (s1 ≤ e2 ∧ s2 ≤ e1).
Proof. apply range_predicates_bounds. Qed.

(** X1 at the ranges 6-6 and 4-6. *)
Lemma range_predicates_as_bounds_witness :
  Day04.one_fully_contains_the_other
    (py_set (py_range 6 (6 + 1))) (py_set (py_range 4 (6 + 1)))
  = bool_decide (4 ≤ 6 ∧ 6 ≤ 6) || bool_decide (6 ≤ 4 ∧ 6 ≤ 6)
  ∧ Day04.one_overlaps_the_other
      (py_set (py_range 6 (6 + 1))) (py_set (py_range 4 (6 + 1)))
    = bool_decide (6 ≤ 6 ∧ 4 ≤ 6).
Proof. apply (range_predicates_as_bounds 6 6 4 6); lia. Defined.

(** Check against the doctests of day 1: the text parses to the five
    inventories, the largest sum is 24000 and the three largest sums add up
    to 45000. *)
Theorem day01_example_answers :
  Day01.parse_inventories Day01.example_text = Some Day01.example_input
  ∧ Day01.most_calories Day01.example_input = Some 24000
  ∧ Day01.sum_of_top_three_calories Day01.example_input = 45000.
Proof. repeat split; vm_compute; reflexivity. Qed.

(** ** Day 1: what the parser returns, and the script as a whole *)

Section Day01Script.

Implicit Types (text : string) (inventories : list (list Z)).

Lemma str_split_length sep text : (0 < length (str_split sep text))%nat.
Proof. unfold str_split. destruct (split_from sep 0 text). simpl. lia. Qed.

Lemma parse_inventories_shape text inventories :
  Day01.parse_inventories text = Some inventories →
  length inventories = length (str_split group_sep text)
  ∧ inventories ≠ []
  ∧ Forall (λ inventory, inventory ≠ []) inventories.
Proof.
  unfold Day01.parse_inventories. intros H.
  pose proof (length_mapM _ _ _ H) as Hlen.
  pose proof (str_split_length group_sep text) as Hpos.
  split; [done|]. split.
  - intros ->. simpl in Hlen. lia.
  - apply mapM_Some_1 in H. clear Hlen Hpos.
    induction H as [|group inventory groups invs Hg _ IH].
    + constructor.
    + constructor; [|exact IH].
      apply length_mapM in Hg. intros ->.
      pose proof (str_split_length line_sep (str_strip group)). simpl in Hg. lia.
Qed.

Lemma most_calories_after_parse text inventories :
  Day01.parse_inventories text = Some inventories →
  is_Some (Day01.most_calories inventories).
Proof.
  intros H. apply parse_inventories_shape in H as (_ & Hne & _).
  unfold Day01.most_calories. apply py_max_is_Some. by destruct inventories.
Qed.

Lemma str_app_assoc (a b c : string) : (a +:+ b) +:+ c = a +:+ (b +:+ c).
Proof. induction a as [|x a IH]; [done|]. rewrite !str_app_cons. by rewrite IH. Qed.

Lemma py_sum_nonneg (xs : list Z) : Forall (λ x, 0 ≤ x) xs → 0 ≤ py_sum xs.
Proof.
  induction 1 as [|x xs Hx _ IH]; [done|]. rewrite py_sum_cons. lia.
Qed.

Lemma py_str_checked_within (n : Z) :
  Z.abs n < str_digits_bound → py_str_checked n = Some (py_str n).
Proof. intros H. unfold py_str_checked. by rewrite bool_decide_eq_true_2. Qed.

Lemma py_str_checked_beyond (n : Z) :
  str_digits_bound ≤ Z.abs n → py_str_checked n = None.
Proof.
  intros H. unfold py_str_checked. rewrite bool_decide_eq_false_2; [done|lia].
Qed.

(** The run of the script after a successful parse, by the size of the two
    answers. *)
Lemma main_after_parse text inventories most :
  Day01.parse_inventories text = Some inventories →
  Day01.most_calories inventories = Some most →
  (str_digits_bound ≤ Z.abs most → Day01.main text = Run "" true)
  ∧ (Z.abs most < str_digits_bound →
     str_digits_bound ≤ Z.abs (Day01.sum_of_top_three_calories inventories) →
     Day01.main text = Run (py_str most +:+ line_sep) true)
  ∧ (Z.abs most < str_digits_bound →
     Z.abs (Day01.sum_of_top_three_calories inventories) < str_digits_bound →
     Day01.main text
     = Run (py_str most +:+ line_sep
            +:+ py_str (Day01.sum_of_top_three_calories inventories) +:+ line_sep)
           false).
Proof.
  intros Hparse Hmost. unfold Day01.main. rewrite Hparse, Hmost.
  split; [|split].
  - intros H. by rewrite py_str_checked_beyond.
  - intros H1 H2. by rewrite py_str_checked_within, py_str_checked_beyond.
  - intros H1 H2. by rewrite !py_str_checked_within.
Qed.

End Day01Script.

(** X2. Whatever [parse_inventories] returns has one inventory per group of
    the text, holds at least one inventory, and holds no empty inventory;
    so [most_calories] never raises on a parsed input. *)
Theorem parse_inventories_never_empty (text : string) (inventories : list (list Z)) :
  Day01.parse_inventories text = Some inventories →
  length inventories = length (str_split group_sep text)
  ∧ inventories ≠ []
  ∧ Forall (λ inventory, inventory ≠ []) inventories
  ∧ is_Some (Day01.most_calories inventories).
Proof.
  intros H. destruct (parse_inventories_shape _ _ H) as (Hlen & Hne & Hall).
  repeat split; try done. by eapply most_calories_after_parse.
Qed.

(** X2 at the example text of the doctest. *)
Lemma parse_inventories_never_empty_witness :
  length Day01.example_input = length (str_split group_sep Day01.example_text)
  ∧ Day01.example_input ≠ []
  ∧ Forall (λ inventory, inventory ≠ []) Day01.example_input
  ∧ is_Some (Day01.most_calories Day01.example_input).
Proof.
  apply (parse_inventories_never_empty Day01.example_text Day01.example_input).
  vm_compute. reflexivity.
Defined.

(** X3. The script of day 1, on every input. When the parser raises, the
    script raises and has printed nothing. After a successful parse [max]
    has a value, and the script prints the greatest sum and the sum of the
    top three, each on a line of its own, unless an answer has more than
    4300 digits: if the first has, the script raises with nothing printed;
    if only the second has, it raises after the first line. On the text of
    the doctest it prints 24000 and 45000. *)
Theorem day01_main_outcome (stdin : string) :
  (Day01.parse_inventories stdin = None → Day01.main stdin = Run "" true)
  ∧ (∀ inventories,
        Day01.parse_inventories stdin = Some inventories →
        ∃ most,
          Day01.most_calories inventories = Some most
          ∧ (str_digits_bound ≤ Z.abs most → Day01.main stdin = Run "" true)
          ∧ (Z.abs most < str_digits_bound →
             str_digits_bound ≤ Z.abs (Day01.sum_of_top_three_calories inventories) →
             Day01.main stdin = Run (py_str most +:+ line_sep) true)
          ∧ (Z.abs most < str_digits_bound →
             Z.abs (Day01.sum_of_top_three_calories inventories) < str_digits_bound →
             Day01.main stdin
             = Run (py_str most +:+ line_sep
                    +:+ py_str (Day01.sum_of_top_three_calories inventories)
                    +:+ line_sep)
                   false))
  ∧ Day01.main Day01.example_text = Run ("24000" +:+ line_sep +:+ "45000" +:+ line_sep) false.
Proof.
  split; [|split].
  - intros H. unfold Day01.main. by rewrite H.
  - intros inventories Hparse.
    destruct (most_calories_after_parse _ _ Hparse) as [most Hmost].
    exists most. split; [done|]. by apply main_after_parse.
  - vm_compute. reflexivity.
Qed.

(** X4. Both answers of day 1 depend on the inventories only through the
    bag of their sums: two lists of inventories whose sums are the same up
    to order (the inventories reordered, the items reordered within them)
    get the same [most_calories] and the same [sum_of_top_three_calories]. *)
Theorem day01_answers_depend_on_sums (inventories inventories' : list (list Z)) :
  py_sum <$> inventories ≡ₚ py_sum <$> inventories' →
  Day01.most_calories inventories = Day01.most_calories inventories'
  ∧ Day01.sum_of_top_three_calories inventories
    = Day01.sum_of_top_three_calories inventories'.
Proof.
  intros Hp. split.
  - unfold Day01.most_calories. by apply py_max_perm.
  - unfold Day01.sum_of_top_three_calories. cbv zeta. f_equal. f_equal.
    apply py_sorted_reverse_unique.
    + by rewrite py_sorted_reverse_perm.
    + apply StronglySorted_Sorted, py_sorted_reverse_sorted.
Qed.

(** X4 at two inventories exchanged, the items of one reversed. *)
Lemma day01_answers_depend_on_sums_witness :
  Day01.most_calories [[1000; 2000]; [4000]] = Day01.most_calories [[4000]; [2000; 1000]]
  ∧ Day01.sum_of_top_three_calories [[1000; 2000]; [4000]]
    = Day01.sum_of_top_three_calories [[4000]; [2000; 1000]].
Proof.
  apply (day01_answers_depend_on_sums [[1000; 2000]; [4000]] [[4000]; [2000; 1000]]).
  apply perm_swap.
Defined.

(** X5. When no inventory has a negative sum, the second answer of day 1
    lies between the first answer and the sum of all the calories. *)
Theorem top_three_between_most_and_total (inventories : list (list Z)) (most : Z) :
  Forall (λ inventory, 0 ≤ py_sum inventory) inventories →
  Day01.most_calories inventories = Some most →
  most ≤ Day01.sum_of_top_three_calories inventories
  ∧ Day01.sum_of_top_three_calories inventories ≤ py_sum (py_sum <$> inventories).
Proof.
  intros Hnn Hmost. unfold Day01.most_calories in Hmost.
  unfold Day01.sum_of_top_three_calories. cbv zeta.
  set (sums := py_sum <$> inventories) in *.
  assert (Hsums : Forall (λ x, 0 ≤ x) sums).
  { unfold sums. apply Forall_fmap. exact Hnn. }
  pose proof (py_sorted_reverse_perm sums) as Hp.
  pose proof (py_sorted_reverse_sorted sums) as Hs.
  assert (Hsorted : Forall (λ x, 0 ≤ x) (py_sorted_reverse sums)) by by rewrite Hp.
  apply py_max_Some in Hmost as [Hin Hmax].
  split.
  - destruct (py_sorted_reverse sums) as [|x rest] eqn:E.
    { rewrite <- Hp in Hin. by apply elem_of_nil in Hin. }
    assert (most ≤ x).
    { rewrite <- Hp in Hin. apply elem_of_cons in Hin as [->|Hin]; [lia|].
      apply StronglySorted_inv in Hs as [_ Hall].
      rewrite Forall_forall in Hall. apply (Hall most Hin). }
    change (take 3 (x :: rest)) with (x :: take 2 rest). rewrite py_sum_cons.
    apply Forall_cons_1 in Hsorted as [_ Hrest].
    assert (0 ≤ py_sum (take 2 rest)) by (by apply py_sum_nonneg, Forall_take). lia.
  - rewrite <- (py_sum_perm _ _ Hp).
    rewrite <- (take_drop 3 (py_sorted_reverse sums)) at 2. rewrite py_sum_app.
    assert (0 ≤ py_sum (drop 3 (py_sorted_reverse sums)))
      by (by apply py_sum_nonneg, Forall_drop).
    lia.
Qed.

(** X5 at the example of the doctest: 24000 ≤ 45000 ≤ 55000. *)
Lemma top_three_between_most_and_total_witness :
  24000 ≤ Day01.sum_of_top_three_calories Day01.example_input
  ∧ Day01.sum_of_top_three_calories Day01.example_input
    ≤ py_sum (py_sum <$> Day01.example_input).
Proof.
  apply (top_three_between_most_and_total Day01.example_input 24000).
  - repeat constructor; vm_compute; discriminate.
  - vm_compute. reflexivity.
Defined.

(** ** Day 4: the counts *)

Section CountLaws.

Implicit Types (pairs : list (gset Z * gset Z)).

Lemma count_fully_overlapping_app pairs pairs' :
  Day04.count_fully_overlapping_assignments (pairs ++ pairs')
  = Day04.count_fully_overlapping_assignments pairs
    + Day04.count_fully_overlapping_assignments pairs'.
Proof.
  unfold Day04.count_fully_overlapping_assignments. by rewrite fmap_app, py_sum_app.
Qed.

Lemma count_overlapping_app pairs pairs' :
  Day04.count_overlapping_assignments (pairs ++ pairs')
  = Day04.count_overlapping_assignments pairs
    + Day04.count_overlapping_assignments pairs'.
Proof.
  unfold Day04.count_overlapping_assignments. by rewrite fmap_app, py_sum_app.
Qed.

End CountLaws.

Lemma count_bounds (pairs : list (gset Z * gset Z)) :
  0 ≤ Day04.count_fully_overlapping_assignments pairs ≤ Z.of_nat (length pairs)
  ∧ 0 ≤ Day04.count_overlapping_assignments pairs ≤ Z.of_nat (length pairs).
Proof.
  induction pairs as [|[a b] pairs IH]; [done|].
  rewrite count_fully_overlapping_cons, count_overlapping_cons.
  cbn [length]. rewrite Nat2Z.inj_succ.
  destruct (Day04.one_fully_contains_the_other a b),
           (Day04.one_overlaps_the_other a b); lia.
Qed.

(** X6. Each count lies between 0 and the number of pairs. *)
Theorem counts_within_length (pairs : list (gset Z * gset Z)) :
  0 ≤ Day04.count_fully_overlapping_assignments pairs ≤ Z.of_nat (length pairs)
  ∧ 0 ≤ Day04.count_overlapping_assignments pairs ≤ Z.of_nat (length pairs).
Proof. apply count_bounds. Qed.

(** X7. The counts do not depend on the order of the pairs nor on the order
    of the two assignments within a pair, and the counts of two lists put
    end to end are the sums of their counts. *)
Theorem counts_order_independent :
  (∀ pairs pairs' : list (gset Z * gset Z),
      pairs ≡ₚ pairs' →
      Day04.count_fully_overlapping_assignments pairs
      = Day04.count_fully_overlapping_assignments pairs'
      ∧ Day04.count_overlapping_assignments pairs
        = Day04.count_overlapping_assignments pairs')
  ∧ (∀ pairs : list (gset Z * gset Z),
        Day04.count_fully_overlapping_assignments (prod_swap <$> pairs)
        = Day04.count_fully_overlapping_assignments pairs
        ∧ Day04.count_overlapping_assignments (prod_swap <$> pairs)
          = Day04.count_overlapping_assignments pairs)
  ∧ (∀ pairs pairs' : list (gset Z * gset Z),
        Day04.count_fully_overlapping_assignments (pairs ++ pairs')
        = Day04.count_fully_overlapping_assignments pairs
          + Day04.count_fully_overlapping_assignments pairs'
        ∧ Day04.count_overlapping_assignments (pairs ++ pairs')
          = Day04.count_overlapping_assignments pairs
            + Day04.count_overlapping_assignments pairs').
Proof.
  split; [|split].
  - intros pairs pairs' Hp.
    unfold Day04.count_fully_overlapping_assignments, Day04.count_overlapping_assignments.
    split; apply py_sum_perm; by rewrite Hp.
  - induction pairs as [|[a b] pairs [IH1 IH2]]; [done|].
    rewrite fmap_cons. cbn [prod_swap fst snd].
    rewrite !count_fully_overlapping_cons, !count_overlapping_cons, IH1, IH2.
    by rewrite (fully_contains_comm b a), (overlaps_comm b a).
  - intros pairs pairs'. split;
      [apply count_fully_overlapping_app|apply count_overlapping_app].
Qed.

(** X8. [parse_section_assignments] returns one pair per line of the file;
    the empty file gives the empty list; and a file with a line that is
    empty once trimmed, an empty line between two others or at the end for
    one, does not parse. *)
Theorem parse_section_assignments_lines :
  (∀ file_in pairs,
      Day04.parse_section_assignments file_in = Some pairs →
      length pairs = length (readlines file_in))
  ∧ Day04.parse_section_assignments "" = Some []
  ∧ (∀ file_in line,
        line ∈ readlines file_in → str_strip line = "" →
        Day04.parse_section_assignments file_in = None)
  ∧ Day04.parse_section_assignments (unlines ["1-2,3-4"; ""; "5-6,7-8"]) = None.
Proof.
  split; [|split; [|split]].
  - intros file_in pairs H. symmetry. by eapply length_mapM.
  - reflexivity.
  - intros file_in line Hin Hblank. unfold Day04.parse_section_assignments.
    apply mapM_None_2, Exists_exists. exists line. split; [done|].
    unfold Day04._str_to_assignments_list. by rewrite Hblank.
  - vm_compute. reflexivity.
Qed.

(** ** Rendered inputs read back *)

Section Rendering.

Implicit Types (c : ascii) (s t line : string) (P : ascii → bool).

Lemma all_chars_app P s t : all_chars P (s +:+ t) = all_chars P s && all_chars P t.
Proof.
  induction s as [|c s IH]; [done|].
  rewrite str_app_cons. simpl. by rewrite IH, andb_assoc.
Qed.

(** A string of digits holds no character that is not a digit. *)
Lemma digits_avoid c s :
  isdigit c = false → all_chars isdigit s = true →
  all_chars (λ c', negb (Ascii.eqb c c')) s = true.
Proof.
  intros Hc. apply all_chars_impl. intros c' Hc'.
  apply negb_true_iff, Ascii.eqb_neq. intros <-. congruence.
Qed.


(** Trimming a line that holds no whitespace and is closed by a line feed. *)
Lemma str_rstrip_line_feed s : str_rstrip (s +:+ line_sep) = str_rstrip s.
Proof.
  induction s as [|c s IH]; [done|].
  rewrite str_app_cons. simpl. by rewrite IH.
Qed.

Lemma str_strip_line s :
  all_chars (λ c, negb (isspace c)) s = true → str_strip (s +:+ line_sep) = s.
Proof.
  intros H. destruct s as [|c s]; [done|].
  unfold str_strip. rewrite str_app_cons.
  pose proof H as H'. simpl in H'. apply andb_true_iff in H' as [Hc _].
  apply negb_true_iff in Hc. cbn [str_lstrip]. rewrite Hc.
  rewrite <- str_app_cons, str_rstrip_line_feed. by apply str_rstrip_no_space.
Qed.

(** The lines of a text made of lines. *)
Lemma readlines_line line t :
  all_chars (λ c, negb (Ascii.eqb NL c)) line = true →
  readlines (line +:+ String NL t) = (line +:+ line_sep) :: readlines t.
Proof.
  induction line as [|c line IH]; intros H.
  - rewrite !str_app_nil_l. reflexivity.
  - cbn [all_chars] in H. apply andb_true_iff in H as [Hc Hl].
    apply negb_true_iff in Hc. rewrite eqb_sym in Hc.
    rewrite !str_app_cons. cbn [readlines]. by rewrite Hc, (IH Hl).
Qed.

Lemma readlines_unlines (ls : list string) :
  Forall (λ line, all_chars (λ c, negb (Ascii.eqb NL c)) line = true) ls →
  readlines (unlines ls) = (λ line, line +:+ line_sep) <$> ls.
Proof.
  induction 1 as [|line ls Hline _ IH]; [done|].
  cbn [unlines foldr]. fold (unlines ls). by rewrite readlines_line, IH.
Qed.

(** A range of natural numbers, rendered, reads back as its set. *)
Lemma str_to_assignment_rendered (r : Z * Z) :
  0 ≤ r.1 → 0 ≤ r.2 →
  Day04._str_to_assignment (Day04.render_range r) = Some (Day04.range_set r).
Proof.
  intros H1 H2. unfold Day04._str_to_assignment, Day04.render_range.
  rewrite str_app_cons, str_app_nil_l.
  rewrite str_split_single_first by (apply digits_no_hyphen, py_str_digits; lia).
  rewrite str_split_single_absent by (apply digits_no_hyphen, py_str_digits; lia).
  simpl. by rewrite !py_int_py_str.
Qed.

Lemma render_range_chars (r : Z * Z) P :
  0 ≤ r.1 → 0 ≤ r.2 →
  (∀ c, isdigit c = true → P c = true) → P "-"%char = true →
  all_chars P (Day04.render_range r) = true.
Proof.
  intros H1 H2 HP Hh. unfold Day04.render_range.
  rewrite str_app_cons, str_app_nil_l, all_chars_app. simpl.
  rewrite Hh, !(all_chars_impl isdigit P _ HP) by (apply py_str_digits; lia). done.
Qed.

Lemma str_to_assignments_list_rendered (q : (Z * Z) * (Z * Z)) :
  0 ≤ q.1.1 → 0 ≤ q.1.2 → 0 ≤ q.2.1 → 0 ≤ q.2.2 →
  Day04._str_to_assignments_list (Day04.render_line q +:+ line_sep)
  = Some (Day04.bounds_sets q).
Proof.
  intros H11 H12 H21 H22. unfold Day04._str_to_assignments_list, Day04.render_line.
  rewrite str_strip_line.
  - rewrite str_app_cons, str_app_nil_l.
    rewrite str_split_single_first.
    + rewrite str_split_single_absent.
      * by rewrite !str_to_assignment_rendered.
      * apply render_range_chars; [done|done| |done].
        intros c Hc. apply negb_true_iff, Ascii.eqb_neq. intros <-. discriminate Hc.
    + apply render_range_chars; [done|done| |done].
      intros c Hc. apply negb_true_iff, Ascii.eqb_neq. intros <-. discriminate Hc.
  - assert (Hr : ∀ r : Z * Z, 0 ≤ r.1 → 0 ≤ r.2 →
              all_chars (λ c, negb (isspace c)) (Day04.render_range r) = true).
    { intros r ? ?. apply render_range_chars; [done|done| |done].
      intros c Hc. by rewrite (isdigit_not_space c Hc). }
    rewrite str_app_cons, str_app_nil_l, all_chars_app. cbn [all_chars].
    by rewrite !Hr.
Qed.

Lemma render_line_no_line_feed (q : (Z * Z) * (Z * Z)) :
  0 ≤ q.1.1 → 0 ≤ q.1.2 → 0 ≤ q.2.1 → 0 ≤ q.2.2 →
  all_chars (λ c, negb (Ascii.eqb NL c)) (Day04.render_line q) = true.
Proof.
  intros H11 H12 H21 H22. unfold Day04.render_line.
  assert (Hr : ∀ r : Z * Z, 0 ≤ r.1 → 0 ≤ r.2 →
            all_chars (λ c, negb (Ascii.eqb NL c)) (Day04.render_range r) = true).
  { intros r ? ?. apply render_range_chars; [done|done| |done].
    intros c Hc. apply negb_true_iff, Ascii.eqb_neq. intros <-. discriminate Hc. }
  rewrite str_app_cons, str_app_nil_l, all_chars_app. cbn [all_chars].
  by rewrite !Hr.
Qed.

Lemma parse_rendered_assignments (qs : list ((Z * Z) * (Z * Z))) :
  Forall (λ q, 0 ≤ q.1.1 ∧ 0 ≤ q.1.2 ∧ 0 ≤ q.2.1 ∧ 0 ≤ q.2.2) qs →
  Day04.parse_section_assignments (Day04.render_assignments qs)
  = Some (Day04.bounds_sets <$> qs).
Proof.
  intros Hqs. unfold Day04.parse_section_assignments, Day04.render_assignments.
  rewrite readlines_unlines.
  - rewrite !mapM_fmap_compose. apply mapM_Some_2.
    apply Forall2_fmap_r, Forall_Forall2_diag.
    eapply Forall_impl; [exact Hqs|]. intros q (? & ? & ? & ?). simpl.
    by apply str_to_assignments_list_rendered.
  - apply Forall_fmap. eapply Forall_impl; [exact Hqs|].
    intros q (? & ? & ? & ?). by apply render_line_no_line_feed.
Qed.

End Rendering.

Section BoundsCounts.

Implicit Types (q : (Z * Z) * (Z * Z)) (qs : list ((Z * Z) * (Z * Z))).

Lemma elem_of_range_set (r : Z * Z) x : x ∈ Day04.range_set r ↔ r.1 ≤ x ≤ r.2.
Proof. apply elem_of_py_range_set. Qed.

Lemma predicates_on_bounds q :
  q.1.1 ≤ q.1.2 → q.2.1 ≤ q.2.2 →
  Day04.one_fully_contains_the_other (Day04.range_set q.1) (Day04.range_set q.2)
  = Day04.bounds_contain q
  ∧ Day04.one_overlaps_the_other (Day04.range_set q.1) (Day04.range_set q.2)
    = Day04.bounds_overlap q.
Proof. intros H1 H2. by apply range_predicates_bounds. Qed.

Lemma counts_on_bounds qs :
  Forall (λ q, q.1.1 ≤ q.1.2 ∧ q.2.1 ≤ q.2.2) qs →
  Day04.count_fully_overlapping_assignments (Day04.bounds_sets <$> qs)
  = Z.of_nat (length (filter (λ q, Day04.bounds_contain q = true) qs))
  ∧ Day04.count_overlapping_assignments (Day04.bounds_sets <$> qs)
    = Z.of_nat (length (filter (λ q, Day04.bounds_overlap q = true) qs)).
Proof.
  induction 1 as [|q qs [H1 H2] _ [IH1 IH2]]; [done|].
  rewrite fmap_cons. unfold Day04.bounds_sets at 1 3.
  rewrite count_fully_overlapping_cons, count_overlapping_cons, IH1, IH2.
  destruct (predicates_on_bounds q H1 H2) as [-> ->].
  rewrite !filter_cons.
  destruct (Day04.bounds_contain q), (Day04.bounds_overlap q);
    repeat case_decide; try congruence; cbn [length]; lia.
Qed.

End BoundsCounts.

(** X9. A file written from bounds that are natural numbers, one line
    [start-end,start-end] per pair, parses to the pairs of sets of those
    bounds, in the order of the lines: the set of a range holds exactly the
    integers from its start to its end, none when they are inverted. *)
Theorem parse_section_assignments_round_trip (qs : list ((Z * Z) * (Z * Z))) :
  Forall (λ q, 0 ≤ q.1.1 ∧ 0 ≤ q.1.2 ∧ 0 ≤ q.2.1 ∧ 0 ≤ q.2.2) qs →
  Day04.parse_section_assignments (Day04.render_assignments qs)
  = Some (Day04.bounds_sets <$> qs)
  ∧ (∀ q x, (x ∈ (Day04.bounds_sets q).1 ↔ q.1.1 ≤ x ≤ q.1.2)
            ∧ (x ∈ (Day04.bounds_sets q).2 ↔ q.2.1 ≤ x ≤ q.2.2)).
Proof.
  intros Hqs. split; [by apply parse_rendered_assignments|].
  intros q x. split; apply elem_of_range_set.
Qed.

(** X9 at the lines ["2-4,6-8"] and ["5-3,10-12"]. *)
Lemma parse_section_assignments_round_trip_witness :
  Day04.parse_section_assignments
    (Day04.render_assignments [((2, 4), (6, 8)); ((5, 3), (10, 12))])
  = Some (Day04.bounds_sets <$> [((2, 4), (6, 8)); ((5, 3), (10, 12))])
  ∧ (∀ (q : (Z * Z) * (Z * Z)) x,
        (x ∈ (Day04.bounds_sets q).1 ↔ q.1.1 ≤ x ≤ q.1.2)
        ∧ (x ∈ (Day04.bounds_sets q).2 ↔ q.2.1 ≤ x ≤ q.2.2)).
Proof.
  apply (parse_section_assignments_round_trip [((2, 4), (6, 8)); ((5, 3), (10, 12))]).
  repeat constructor; simpl; lia.
Defined.

(** X10. On a file written from ranges of natural numbers with start ≤ end
    the script of day 4 does not raise and prints, each on a line of its
    own, the number of lines where one range lies within the other and the
    number of lines where each range starts no later than the other ends:
    the sets give the answers of the comparisons of bounds. *)
Theorem day04_main_on_rendered (qs : list ((Z * Z) * (Z * Z))) :
  Forall (λ q, 0 ≤ q.1.1 ≤ q.1.2 ∧ 0 ≤ q.2.1 ≤ q.2.2) qs →
  Day04.main (Day04.render_assignments qs)
  = Run (py_str (Z.of_nat (length (filter (λ q, Day04.bounds_contain q = true) qs)))
         +:+ line_sep
         +:+ py_str (Z.of_nat (length (filter (λ q, Day04.bounds_overlap q = true) qs)))
         +:+ line_sep)
        false.
Proof.
  intros Hqs. unfold Day04.main.
  rewrite parse_rendered_assignments
    by (eapply Forall_impl; [exact Hqs|]; intros q ?; simpl in *; lia).
  destruct (counts_on_bounds qs) as [-> ->].
  { eapply Forall_impl; [exact Hqs|]. intros q ?. simpl in *. lia. }
  unfold py_print. by rewrite str_app_nil_l, str_app_assoc.
Qed.

(** X10 at the six lines of the doctest: the script prints 2 and 4. *)
Lemma day04_main_on_rendered_witness :
  Day04.main
    (Day04.render_assignments
       [((2, 4), (6, 8)); ((2, 3), (4, 5)); ((5, 7), (7, 9));
        ((2, 8), (3, 7)); ((6, 6), (4, 6)); ((2, 6), (4, 8))])
  = Run ("2" +:+ line_sep +:+ "4" +:+ line_sep) false.
Proof.
  apply (day04_main_on_rendered
           [((2, 4), (6, 8)); ((2, 3), (4, 5)); ((5, 7), (7, 9));
            ((2, 8), (3, 7)); ((6, 6), (4, 6)); ((2, 6), (4, 8))]).
  repeat constructor; simpl; lia.
Defined.

(** ** Day 1: rendered inventories read back *)

Section Groups.

Implicit Types (c : ascii) (s t g : string) (ls : list string).
















End Groups.

Section Inventories.

Implicit Types (c : ascii) (s t : string) (ls : list string) (inventory : list Z).














End Inventories.

Section BlankInput.

Implicit Types (c : ascii) (s sep : string).

Lemma str_lstrip_all_space s : all_chars isspace s = true → str_lstrip s = "".
Proof.
  induction s as [|c s IH]; [done|]. intros [Hc Hs]%andb_true_iff.
  cbn [str_lstrip]. rewrite Hc. by apply IH.
Qed.

Lemma str_rstrip_empty_inv s : str_rstrip s = "" → all_chars isspace s = true.
Proof.
  induction s as [|c s IH]; [done|]. cbn [str_rstrip all_chars].
  destruct (str_rstrip s) eqn:E; [|discriminate].
  destruct (isspace c); [|discriminate]. intros _. by apply IH.
Qed.

Lemma str_lstrip_all_space_inv s :
  all_chars isspace (str_lstrip s) = true → all_chars isspace s = true.
Proof.
  induction s as [|c s IH]; [done|]. cbn [str_lstrip].
  destruct (isspace c) eqn:Ec; [|done]. intros H. cbn [all_chars]. by rewrite Ec, IH.
Qed.

(** A text trims to nothing exactly when it holds whitespace only. *)
Lemma str_strip_empty_iff s : str_strip s = "" ↔ all_chars isspace s = true.
Proof.
  unfold str_strip. split.
  - intros H. by apply str_lstrip_all_space_inv, str_rstrip_empty_inv.
  - intros H. by rewrite str_lstrip_all_space.
Qed.

Lemma split_from_all_space sep skip s :
  all_chars isspace s = true → all_chars isspace (split_from sep skip s).1 = true.
Proof.
  revert skip. induction s as [|c s IH]; intros skip H; [by destruct skip|].
  cbn [all_chars] in H. apply andb_true_iff in H as [Hc Hs].
  destruct skip as [|k].
  - rewrite split_from_0_cons. destruct (String.prefix sep (String c s)); [done|].
    specialize (IH 0%nat Hs). destruct (split_from sep 0 s) as [p ps].
    cbn [fst all_chars] in *. by rewrite Hc, IH.
  - rewrite split_from_S_cons. by apply IH.
Qed.

Lemma parse_blank_text (text : string) :
  str_strip text = "" → Day01.parse_inventories text = None.
Proof.
  intros H%str_strip_empty_iff. unfold Day01.parse_inventories, str_split.
  pose proof (split_from_all_space group_sep 0 text H) as Hp.
  destruct (split_from group_sep 0 text) as [p ps]. cbn [fst] in Hp.
  apply str_strip_empty_iff in Hp.
  apply mapM_None_2, Exists_cons_hd. by apply blank_group_fails.
Qed.

End BlankInput.

(** Check of the rendering against the text of the doctest. *)
Example render_inventories_example :
  Day01.render_inventories Day01.example_input = Day01.example_text.
Proof. vm_compute. reflexivity. Qed.



(** X12. An input that is empty or holds whitespace only does not parse:
    its first group trims to nothing. The script of day 1 raises on it
    without printing. *)
Theorem parse_inventories_blank_input (text : string) :
  str_strip text = "" →
  Day01.parse_inventories text = None
  ∧ Day01.main text = Run "" true.
Proof.
  intros H. pose proof (parse_blank_text text H) as Hparse.
  split; [done|]. unfold Day01.main. by rewrite Hparse.
Qed.

(** X12 at the empty input. *)
Lemma parse_inventories_blank_input_witness :
  Day01.parse_inventories "" = None ∧ Day01.main "" = Run "" true.
Proof. apply (parse_inventories_blank_input ""). reflexivity. Defined.

(** X13. The two counts differ by the pairs that hold an empty set and the
    pairs that overlap without containment: the containing pairs and the
    pairs that overlap while neither assignment contains the other are as
    many as the overlapping pairs and the pairs that hold an empty set. *)
Theorem counts_balance (pairs : list (gset Z * gset Z)) :
  Day04.count_fully_overlapping_assignments pairs
  + Z.of_nat (length (filter (λ p, Day04.one_overlaps_the_other p.1 p.2 = true
                                   ∧ Day04.one_fully_contains_the_other p.1 p.2 = false)
                             pairs))
  = Day04.count_overlapping_assignments pairs
    + Z.of_nat (length (filter (λ p, p.1 = ∅ ∨ p.2 = ∅) pairs)).
Proof.
  induction pairs as [|[a b] pairs IH]; [done|].
  rewrite count_fully_overlapping_cons, count_overlapping_cons, !filter_cons.
  cbn [fst snd].
  destruct (decide (a = ∅ ∨ b = ∅)) as [Hempty|Hfull].
  - assert (Day04.one_fully_contains_the_other a b = true
            ∧ Day04.one_overlaps_the_other a b = false) as [-> ->].
    { destruct Hempty as [-> | ->].
      - split; [apply fully_contains_empty_l|apply overlaps_empty_l].
      - rewrite fully_contains_comm, overlaps_comm.
        split; [apply fully_contains_empty_l|apply overlaps_empty_l]. }
    rewrite decide_False by (intros [? _]; discriminate).
    cbn [length]. lia.
  - assert (a ≠ ∅ ∧ b ≠ ∅) as [Ha Hb] by (split; intros ->; apply Hfull; auto).
    pose proof (fully_contains_overlaps a b Ha Hb) as Himp.
    destruct (Day04.one_fully_contains_the_other a b) eqn:Ef,
             (Day04.one_overlaps_the_other a b) eqn:Eo.
    + rewrite decide_False by (intros [_ ?]; discriminate). lia.
    + specialize (Himp eq_refl). discriminate Himp.
    + rewrite decide_True by done. cbn [length]. lia.
    + rewrite decide_False by (intros [? _]; discriminate). lia.
Qed.

(** X14. The script of day 4 raises exactly when the parser does, and then
    it has printed nothing; otherwise it prints the two counts, each on a
    line of its own, and each count lies between 0 and the number of lines
    of the input. *)
Theorem day04_main_outcome (stdin : string) :
  (raised (Day04.main stdin) = true ↔ Day04.parse_section_assignments stdin = None)
  ∧ (Day04.parse_section_assignments stdin = None → stdout (Day04.main stdin) = "")
  ∧ (∀ pairs,
        Day04.parse_section_assignments stdin = Some pairs →
        stdout (Day04.main stdin)
        = py_str (Day04.count_fully_overlapping_assignments pairs) +:+ line_sep
          +:+ py_str (Day04.count_overlapping_assignments pairs) +:+ line_sep
        ∧ 0 ≤ Day04.count_fully_overlapping_assignments pairs
            ≤ Z.of_nat (length (readlines stdin))
        ∧ 0 ≤ Day04.count_overlapping_assignments pairs
            ≤ Z.of_nat (length (readlines stdin))).
Proof.
  unfold Day04.main.
  destruct (Day04.parse_section_assignments stdin) as [pairs|] eqn:Hparse.
  - split; [simpl; split; discriminate|]. split; [discriminate|].
    intros ? [= <-]. split.
    + unfold py_print. cbn [stdout]. by rewrite str_app_nil_l, str_app_assoc.
    + unfold Day04.parse_section_assignments in Hparse.
      rewrite (length_mapM _ _ _ Hparse). apply count_bounds.
  - split; [done|]. split; [done|]. discriminate.
Qed.

(** ** Splitting a text *)

Section SplitLaws.

Implicit Types (c : ascii) (s t sep piece : string).










End SplitLaws.

